(** * BarrierBoxCallback: the barrier-box reset callback of MineStudio

    Shallow embedding of
    [minestudio/simulator/callbacks/barrier_box.py] and the properties of
    its natural-language specification.

    Layout: the Python value model and the exception/state monad, the
    class [BarrierBoxCallback] method by method, a decoder for fill
    commands, the faces of the box as the specification words them, a
    recording simulator to run the reset hook on, then the lemmas. *)

From Stdlib Require Import ZArith String Ascii List Lia.
From Stdlib Require Import Decimal DecimalString DecimalPos DecimalZ.
From stdpp Require Import gmap strings.

Local Open Scope string_scope.
Local Open Scope list_scope.
Local Open Scope Z_scope.

(** ** Python values, exceptions and the effect monad *)

Module Py.

(** The scalar Python values a configuration entry can hold in this model:
    [None], [bool], [int] (unbounded) and [str].  Floats and containers are
    outside the model. *)
Inductive pyval : Type :=
| PyNone
| PyBool (b : bool)
| PyInt (z : Z)
| PyStr (s : string).

(** Exceptions.  Only [ValueError] carries its message, which the class
    builds itself; [Foreign] stands for whatever a collaborator raises. *)
Inductive exn : Type :=
| ValueError (msg : string)
| TypeError
| AttributeError
| ZeroDivisionError
| Foreign (name : string).

Inductive result (A : Type) : Type :=
| Ok (a : A)
| Raise (e : exn).
Arguments Ok {A} a.
Arguments Raise {A} e.

(** A computation over a mutable store [S]: it returns a value or raises,
    and in both cases hands back the store, since a Python exception does
    not roll back what was mutated before it. *)
Definition M (S A : Type) : Type := S -> result A * S.

Definition ret {S A} (a : A) : M S A := fun s => (Ok a, s).

Definition bind {S A B} (c : M S A) (k : A -> M S B) : M S B :=
  fun s => match c s with
           | (Ok a, s') => k a s'
           | (Raise e, s') => (Raise e, s')
           end.

Definition lift {S A} (r : result A) : M S A := fun s => (r, s).

(** Attribute read [self.f]. *)
Definition getattr {S A} (f : S -> A) : M S A := fun s => (Ok (f s), s).

(** Run a computation on one component of a pair store. *)
Definition on_fst {S T A} (c : M S A) : M (S * T) A :=
  fun st => let '(r, s') := c (fst st) in (r, (s', snd st)).

Definition on_snd {S T A} (c : M T A) : M (S * T) A :=
  fun st => let '(r, t') := c (snd st) in (r, (fst st, t')).

Declare Scope py_scope.
Delimit Scope py_scope with py.
Notation "x <- c ;; k" := (bind c (fun x => k))
  (at level 20, c at level 99, k at level 200, only parsing) : py_scope.

(** [for x in xs: acc = body x acc], the loop variables that survive an
    iteration being threaded through [acc]. *)
Fixpoint for_each {S A B} (xs : list A) (body : A -> B -> M S B) (acc : B)
  : M S B :=
  match xs with
  | [] => ret acc
  | x :: xs' => bind (body x acc) (for_each xs' body)
  end.

(** [l.append(x)], as a value. *)
Definition list_append {A} (l : list A) (x : A) : list A := l ++ [x].

(** [bool] is a subclass of [int]: arithmetic sees [True] as 1. *)
Definition int_like (v : pyval) : option Z :=
  match v with
  | PyBool b => Some (if b then 1 else 0)
  | PyInt z => Some z
  | PyNone | PyStr _ => None
  end.

(** [v // d] for an int literal [d]; Python's [//] rounds to the floor, as
    [Z.div] does. *)
Definition py_floordiv (v : pyval) (d : Z) : result Z :=
  match int_like v with
  | Some z => if d =? 0 then Raise ZeroDivisionError else Ok (z / d)
  | None => Raise TypeError
  end.

(** [a + v] for an int [a]. *)
Definition py_add (a : Z) (v : pyval) : result Z :=
  match int_like v with
  | Some z => Ok (a + z)
  | None => Raise TypeError
  end.

(** [str(n)] of an int: decimal digits, a leading minus sign when negative. *)
Definition str_int (n : Z) : string := NilZero.string_of_int (Z.to_int n).

(** [str(v)], which is what an f-string field [{v}] inserts. *)
Definition py_str (v : pyval) : string :=
  match v with
  | PyNone => "None"
  | PyBool true => "True"
  | PyBool false => "False"
  | PyInt z => str_int z
  | PyStr s => s
  end.

(** [repr] of a [str] that holds no quote, backslash or control character. *)
Definition repr_str (s : string) : string := "'" +:+ s +:+ "'".

(** [str] of a list of such strings. *)
Definition str_list (l : list string) : string :=
  "[" +:+ String.concat ", " (map repr_str l) +:+ "]".

(** Truth value of [if v:]. *)
Definition truthy (v : pyval) : bool :=
  match v with
  | PyNone => false
  | PyBool b => b
  | PyInt z => negb (z =? 0)
  | PyStr s => negb (String.eqb s EmptyString)
  end.

(** [v == s] for a [str] [s]: only an equal [str] compares equal. *)
Definition eq_str (v : pyval) (s : string) : bool :=
  match v with
  | PyStr t => String.eqb t s
  | _ => false
  end.

(** [v in l] for a list [l] of [str]. *)
Definition py_in (v : pyval) (l : list string) : bool := existsb (eq_str v) l.

(** A value found under a key of the loaded configuration: a scalar or a
    nested mapping ([dict] with [str] keys). *)
Inductive conf_value : Type :=
| CScalar (v : pyval)
| CMapping (m : gmap string pyval).

(** [d.get(k, dflt)]. *)
Definition dict_get (d : gmap string pyval) (k : string) (dflt : pyval)
  : pyval :=
  match d !! k with
  | Some v => v
  | None => dflt
  end.

End Py.

Import Py.
Local Open Scope py_scope.

(** ** The class [BarrierBoxCallback] *)

Module BarrierBoxCallback.

(** The instance attributes set by [__init__].  Python checks none of the
    annotations, so every attribute holds whatever value was passed. *)
Record instance : Type := Instance {
  size : pyval;
  height : pyval;
  block_type : pyval;
  include_floor : pyval;
  include_ceiling : pyval
}.

(** Modelled from the spec: the base class [MinecraftCallback] lives in
    [callback.py], which is not among the sources.  The spec gives
    construction a single failure kind, raised by the block-type check, so
    [super().__init__()] is taken to return without raising and to set none
    of the five attributes. *)
Definition MinecraftCallback__init__ : result unit := Ok tt.

Definition valid_blocks : list string := ["barrier"; "bedrock"; "glass"].

(** The message of the [ValueError]:
    [f"block_type must be one of {valid_blocks}, got '{self.block_type}'"]. *)
Definition invalid_block_message (block_type : pyval) : string :=
  "block_type must be one of " +:+ str_list valid_blocks
    +:+ ", got '" +:+ py_str block_type +:+ "'".

(** [__init__]: the attributes are assigned first and the block type is
    checked last; when the check raises, the caller gets no object. *)
Definition __init__
    (size height block_type include_floor include_ceiling : pyval)
  : result instance :=
  match MinecraftCallback__init__ with
  | Raise e => Raise e
  | Ok _ =>
    let self :=
      {| size := size; height := height; block_type := block_type;
         include_floor := include_floor;
         include_ceiling := include_ceiling |} in
    if negb (py_in self.(BarrierBoxCallback.block_type) valid_blocks)
    then Raise (ValueError
                  (invalid_block_message self.(BarrierBoxCallback.block_type)))
    else Ok self
  end.

Section Factory.

(** [MinecraftCallback.load_data_from_conf] is not among the sources: it
    is taken as a parameter that turns a configuration source into the
    loaded mapping, or raises. *)
Variable Source : Type.
Variable load_data_from_conf : Source -> result (gmap string conf_value).

(** [create_from_conf]: [None] when the key is absent.  Calling [get] on
    a scalar raises [AttributeError]. *)
Definition create_from_conf (source : Source) : result (option instance) :=
  match load_data_from_conf source with
  | Raise e => Raise e
  | Ok data =>
    match data !! "barrier_box" with
    | Some box_config =>
      match box_config with
      | CMapping box_config =>
        match __init__
                (dict_get box_config "size" (PyInt 25))
                (dict_get box_config "height" (PyInt 10))
                (dict_get box_config "block_type" (PyStr "barrier"))
                (dict_get box_config "include_floor" (PyBool false))
                (dict_get box_config "include_ceiling" (PyBool false))
        with
        | Ok self => Ok (Some self)
        | Raise e => Raise e
        end
      | CScalar _ => Raise AttributeError
      end
    | None => Ok None
    end
  end.

End Factory.

(** The f-string shared by the six [append] calls:
    [f"/fill {a} {b} {c} {d} {e} {f} {block}"] with int fields. *)
Definition fill (a b c d e f : Z) (block : string) : string :=
  "/fill " +:+ str_int a +:+ " " +:+ str_int b +:+ " " +:+ str_int c
    +:+ " " +:+ str_int d +:+ " " +:+ str_int e +:+ " " +:+ str_int f
    +:+ " " +:+ block.

(** [_generate_box_commands], run on [self] as the store.  The local list
    [commands] grows by [append]. *)
Definition _generate_box_commands (center_x center_z base_y : Z)
  : M instance (list string) :=
  self_size <- getattr size ;;
  half_size <- lift (py_floordiv self_size 2) ;;
  self_block_type <- getattr block_type ;;
  let block := "minecraft:" +:+ py_str self_block_type in
  let x_min := center_x - half_size in
  let x_max := center_x + half_size in
  let z_min := center_z - half_size in
  let z_max := center_z + half_size in
  let y_min := base_y in
  self_height <- getattr height ;;
  y_max <- lift (py_add base_y self_height) ;;
  let commands : list string := [] in
  (* north wall (negative z) *)
  let commands :=
    list_append commands (fill x_min y_min z_min x_max y_max z_min block) in
  (* south wall (positive z) *)
  let commands :=
    list_append commands (fill x_min y_min z_max x_max y_max z_max block) in
  (* west wall (negative x) *)
  let commands :=
    list_append commands (fill x_min y_min z_min x_min y_max z_max block) in
  (* east wall (positive x) *)
  let commands :=
    list_append commands (fill x_max y_min z_min x_max y_max z_max block) in
  (* optional floor *)
  self_include_floor <- getattr include_floor ;;
  let commands :=
    if truthy self_include_floor
    then list_append commands
           (fill x_min y_min z_min x_max y_min z_max block)
    else commands in
  (* optional ceiling *)
  self_include_ceiling <- getattr include_ceiling ;;
  let commands :=
    if truthy self_include_ceiling
    then list_append commands
           (fill x_min y_max z_min x_max y_max z_max block)
    else commands in
  ret commands.

Section ResetHook.

(** The simulator is used through two methods, [sim.env.execute_cmd] and
    [sim._wrap_obs_info]; both act on the simulator's own state [Sim]. *)
Variables Sim Obs Reward Done Info : Type.
Variable execute_cmd : string -> M Sim (Obs * Reward * Done * Info).
Variable _wrap_obs_info : Obs -> Info -> M Sim (Obs * Info).

(** [after_reset], on the store made of [self] and the simulator.  The
    loop rebinds [obs] and [info] (and [reward], [done], which nothing
    reads afterwards). *)
Definition after_reset (obs : Obs) (info : Info)
  : M (instance * Sim) (Obs * Info) :=
  self_size <- on_fst (getattr size) ;;
  half_size <- lift (py_floordiv self_size 2) ;;
  commands <- on_fst (_generate_box_commands 0 0 half_size) ;;
  last <-
    for_each commands
      (fun command '(obs, info) =>
         step <- on_snd (execute_cmd command) ;;
         let '(obs, reward, done, info) := step in
         ret (obs, info))
      (obs, info) ;;
  let '(obs, info) := last in
  wrapped <- on_snd (_wrap_obs_info obs info) ;;
  let '(obs, info) := wrapped in
  ret (obs, info).

End ResetHook.

(** [__repr__]: three adjacent f-strings, each field inserted with [str]. *)
Definition __repr__ : M instance string :=
  self_size <- getattr size ;;
  self_height <- getattr height ;;
  self_block_type <- getattr block_type ;;
  self_include_floor <- getattr include_floor ;;
  self_include_ceiling <- getattr include_ceiling ;;
  ret ("BarrierBoxCallback(size=" +:+ py_str self_size
         +:+ ", height=" +:+ py_str self_height +:+ ", "
         +:+ "block_type='" +:+ py_str self_block_type
         +:+ "', include_floor=" +:+ py_str self_include_floor +:+ ", "
         +:+ "include_ceiling=" +:+ py_str self_include_ceiling +:+ ")").

End BarrierBoxCallback.

(** ** Reading a fill command back

    The generator returns strings.  To speak of the region a command
    fills, [parse_fill] decodes the text: the keyword, six decimal
    integers separated by single spaces, and the rest as the block. *)

Module Fill.

Record region : Type := Region {
  x1 : Z; y1 : Z; z1 : Z;
  x2 : Z; y2 : Z; z2 : Z;
  block : string
}.

Fixpoint no_space (s : string) : bool :=
  match s with
  | EmptyString => true
  | String c s' => negb (Ascii.eqb c " ") && no_space s'
  end.

(** Split at the first space. *)
Fixpoint cut (s : string) : option (string * string) :=
  match s with
  | EmptyString => None
  | String c s' =>
    if Ascii.eqb c " " then Some (EmptyString, s')
    else match cut s' with
         | Some (t, r) => Some (String c t, r)
         | None => None
         end
  end.

Definition parse_int (s : string) : option Z :=
  match NilZero.int_of_string s with
  | Some d => Some (Z.of_int d)
  | None => None
  end.

(** Read one integer field and the space after it. *)
Definition field (s : string) : option (Z * string) :=
  match cut s with
  | Some (t, r) =>
    match parse_int t with
    | Some n => Some (n, r)
    | None => None
    end
  | None => None
  end.

Definition parse_fill (s : string) : option region :=
  match cut s with
  | Some (kw, s) =>
    if String.eqb kw "/fill" then
      '(a, s) ← field s; '(b, s) ← field s; '(c, s) ← field s;
      '(d, s) ← field s; '(e, s) ← field s; '(f, s) ← field s;
      Some (Region a b c d e f s)
    else None
  | None => None
  end.

(** Block positions from the first corner to the second, both included,
    along x and along z.  This is the number of blocks when the corners
    are in order; for swapped corners it is the signed length. *)
Definition x_blocks (r : region) : Z := x2 r - x1 r + 1.
Definition z_blocks (r : region) : Z := z2 r - z1 r + 1.

(** The command text of a region, through the formatter of the class. *)
Definition unparse (r : region) : string :=
  BarrierBoxCallback.fill (x1 r) (y1 r) (z1 r) (x2 r) (y2 r) (z2 r) (block r).

(** The regions of a list of commands, when every one decodes. *)
Fixpoint parse_all (l : list string) : option (list region) :=
  match l with
  | [] => Some []
  | s :: l' =>
    r ← parse_fill s; rs ← parse_all l'; Some (r :: rs)
  end.

End Fill.

(** ** The six faces, in the words of the specification

    Section 4.3 of the specification: each descriptor spans from
    [(x-half, y, z-half)] to [(x+half, y+height, z+half)] on the relevant
    face; the walls are full-height slabs on the four edges, floor and
    ceiling are horizontal slabs at [y_min] and [y_max]. *)

Module Face.

Import Fill.

Section Faces.

Variables (x z y half height : Z) (blk : string).

Definition north : region :=
  Region (x - half) y (z - half) (x + half) (y + height) (z - half) blk.
Definition south : region :=
  Region (x - half) y (z + half) (x + half) (y + height) (z + half) blk.
Definition west : region :=
  Region (x - half) y (z - half) (x - half) (y + height) (z + half) blk.
Definition east : region :=
  Region (x + half) y (z - half) (x + half) (y + height) (z + half) blk.
Definition floor : region :=
  Region (x - half) y (z - half) (x + half) y (z + half) blk.
Definition ceiling : region :=
  Region (x - half) (y + height) (z - half)
         (x + half) (y + height) (z + half) blk.

(** The whole box in command order, for given floor and ceiling flags. *)
Definition box (with_floor with_ceiling : bool) : list region :=
  [north; south; west; east]
    ++ (if with_floor then [floor] else [])
    ++ (if with_ceiling then [ceiling] else []).

End Faces.

End Face.

(** ** A simulator to run the reset hook on *)

(** A simulator that only records the commands it is given, in order, and
    reports how many it has seen as observation and info. *)
Module Recorder.

Definition Sim : Type := list string.

Definition execute_cmd (command : string) : M Sim (nat * Z * bool * nat) :=
  fun log =>
    let log' := list_append log command in
    (Ok (length log', 0, false, length log'), log').

Definition _wrap_obs_info (obs info : nat) : M Sim (nat * nat) :=
  fun log => (Ok (obs, info), log).

Definition after_reset :=
  BarrierBoxCallback.after_reset Sim nat Z bool nat execute_cmd _wrap_obs_info.

(** The commands the hook submits for [self], starting from an empty log. *)
Definition submitted (self : BarrierBoxCallback.instance) : list string :=
  snd (snd (after_reset 0%nat 0%nat (self, []))).

End Recorder.

(** The loader for in-memory mappings: the source is the mapping itself. *)
Definition load_mapping (source : gmap string conf_value)
  : result (gmap string conf_value) := Ok source.

(** Membership in the valid set, spelled out. *)
Definition valid_block_type (v : pyval) : Prop :=
  v = PyStr "barrier" \/ v = PyStr "bedrock" \/ v = PyStr "glass".

(** The block name a command carries: [f"minecraft:{self.block_type}"]. *)
Definition block_name (self : BarrierBoxCallback.instance) : string :=
  "minecraft:" +:+ py_str (BarrierBoxCallback.block_type self).

(** Some instances: the one [BarrierBoxCallback()] builds, the same with a
    floor, and the second example of the docstring of [__init__]. *)
Definition default_instance : BarrierBoxCallback.instance :=
  BarrierBoxCallback.Instance
    (PyInt 25) (PyInt 10) (PyStr "barrier") (PyBool false) (PyBool false).

Definition floored_instance : BarrierBoxCallback.instance :=
  BarrierBoxCallback.Instance
    (PyInt 25) (PyInt 10) (PyStr "barrier") (PyBool true) (PyBool false).

Definition bedrock_instance : BarrierBoxCallback.instance :=
  BarrierBoxCallback.Instance
    (PyInt 30) (PyInt 15) (PyStr "bedrock") (PyBool true) (PyBool true).

(** ** Positions, translations and the text of [__repr__] *)

Module Geometry.

Import Fill.

(** Whether the block at [(px, py, pz)] lies in the region of a fill
    command: the cuboid between the two corners, both included, whichever
    way round the corners are given. *)
Definition inside (r : region) (px py pz : Z) : bool :=
  (Z.min (x1 r) (x2 r) <=? px) && (px <=? Z.max (x1 r) (x2 r))
  && (Z.min (y1 r) (y2 r) <=? py) && (py <=? Z.max (y1 r) (y2 r))
  && (Z.min (z1 r) (z2 r) <=? pz) && (pz <=? Z.max (z1 r) (z2 r)).

(** Whether some region of a list holds the position. *)
Definition covered (rs : list region) (px py pz : Z) : bool :=
  existsb (fun r => inside r px py pz) rs.

(** A region moved by [(dx, dy, dz)]. *)
Definition translate (dx dy dz : Z) (r : region) : region :=
  Region (x1 r + dx) (y1 r + dy) (z1 r + dz)
         (x2 r + dx) (y2 r + dy) (z2 r + dz) (block r).

End Geometry.

(** A decoder for the text of [__repr__], for objects whose size and
    height are ints, whose block type is a string and whose flags are
    bools. *)
Module Repr.

Fixpoint lacks (c : ascii) (s : string) : bool :=
  match s with
  | EmptyString => true
  | String a s' => negb (Ascii.eqb a c) && lacks c s'
  end.

(** Split at the first occurrence of [c]. *)
Fixpoint cut_at (c : ascii) (s : string) : option (string * string) :=
  match s with
  | EmptyString => None
  | String a s' =>
    if Ascii.eqb a c then Some (EmptyString, s')
    else match cut_at c s' with
         | Some (t, r) => Some (String a t, r)
         | None => None
         end
  end.

(** Remove the prefix [p]. *)
Fixpoint strip (p s : string) : option string :=
  match p with
  | EmptyString => Some s
  | String a p' =>
    match s with
    | EmptyString => None
    | String b s' => if Ascii.eqb a b then strip p' s' else None
    end
  end.

Definition parse_bool (s : string) : option bool :=
  if String.eqb s "True" then Some true
  else if String.eqb s "False" then Some false
  else None.

Definition parse_repr (s : string) : option BarrierBoxCallback.instance :=
  s ← strip "BarrierBoxCallback(size=" s;
  '(t, s) ← cut_at "," s; sz ← Fill.parse_int t;
  s ← strip " height=" s;
  '(t, s) ← cut_at "," s; h ← Fill.parse_int t;
  s ← strip " block_type='" s;
  '(bt, s) ← cut_at "'" s;
  s ← strip ", include_floor=" s;
  '(t, s) ← cut_at "," s; fl ← parse_bool t;
  s ← strip " include_ceiling=" s;
  '(t, s) ← cut_at ")" s; ce ← parse_bool t;
  match s with
  | EmptyString =>
    Some (BarrierBoxCallback.Instance
            (PyInt sz) (PyInt h) (PyStr bt) (PyBool fl) (PyBool ce))
  | String _ _ => None
  end.

End Repr.

(** ** Any simulator, with its calls recorded

    The two methods of a simulator, wrapped so that each call is added to
    a trace kept beside the simulator's state. *)
Module Traced.

Inductive call : Type :=
| CallExecute (command : string)
| CallWrap.

Section Wrap.

Variables Sim Obs Reward Done Info : Type.
Variable execute_cmd : string -> M Sim (Obs * Reward * Done * Info).
Variable _wrap_obs_info : Obs -> Info -> M Sim (Obs * Info).

Definition traced_execute_cmd (command : string)
  : M (Sim * list call) (Obs * Reward * Done * Info) :=
  fun st =>
    let '(r, sim') := execute_cmd command (fst st) in
    (r, (sim', snd st ++ [CallExecute command])).

Definition traced_wrap_obs_info (obs : Obs) (info : Info)
  : M (Sim * list call) (Obs * Info) :=
  fun st =>
    let '(r, sim') := _wrap_obs_info obs info (fst st) in
    (r, (sim', snd st ++ [CallWrap])).

Definition after_reset :=
  BarrierBoxCallback.after_reset (Sim * list call) Obs Reward Done Info
    traced_execute_cmd traced_wrap_obs_info.

End Wrap.

End Traced.


(** ** Lemmas: decimal text and the decoder *)

Section Decoder.

Import Fill.

Lemma no_space_digits (d : uint) :
  no_space (NilEmpty.string_of_uint d) = true.
Proof. induction d; simpl; auto. Qed.

Lemma no_space_str_int (n : Z) : no_space (str_int n) = true.
Proof.
  unfold str_int.
  destruct (Z.to_int n) as [d|d]; simpl;
    destruct d; simpl; auto using no_space_digits.
Qed.

Lemma parse_int_str_int (n : Z) : parse_int (str_int n) = Some n.
Proof.
  unfold parse_int, str_int.
  rewrite NilZero.isi.
  - now rewrite DecimalZ.of_to.
  - destruct n; simpl; try discriminate.
    intros [= H]. now apply DecimalPos.Unsigned.to_uint_nonnil in H.
  - destruct n; simpl; try discriminate.
    intros [= H]. now apply DecimalPos.Unsigned.to_uint_nonnil in H.
Qed.

Lemma cut_token (t r : string) :
  no_space t = true -> cut (t +:+ " " +:+ r) = Some (t, r).
Proof.
  induction t as [|c t IH]; simpl; intros H.
  - reflexivity.
  - apply andb_prop in H as [Hc Ht].
    destruct (Ascii.eqb c " "); [discriminate|].
    now rewrite IH.
Qed.

Lemma field_str_int (n : Z) (r : string) :
  field (str_int n +:+ " " +:+ r) = Some (n, r).
Proof.
  unfold field.
  rewrite cut_token by apply no_space_str_int.
  now rewrite parse_int_str_int.
Qed.

(** Decoding a formatted command gives back its seven fields, whatever
    the block text is. *)
Lemma parse_fill_fill (a b c d e f : Z) (blk : string) :
  parse_fill (BarrierBoxCallback.fill a b c d e f blk)
  = Some (Region a b c d e f blk).
Proof.
  unfold parse_fill, BarrierBoxCallback.fill.
  change ("/fill " +:+ ?s) with ("/fill" +:+ " " +:+ s).
  rewrite cut_token by reflexivity.
  simpl String.eqb. cbv iota.
  repeat (rewrite field_str_int; simpl mbind).
  reflexivity.
Qed.

End Decoder.

Lemma parse_fill_unparse (r : Fill.region) :
  Fill.parse_fill (Fill.unparse r) = Some r.
Proof. destruct r. apply parse_fill_fill. Qed.

Lemma parse_all_unparse (rs : list Fill.region) :
  Fill.parse_all (map Fill.unparse rs) = Some rs.
Proof.
  induction rs as [|r rs IH]; [reflexivity|].
  cbn [map Fill.parse_all].
  rewrite parse_fill_unparse, IH. reflexivity.
Qed.

(** ** Lemmas: what the generator computes *)

Section Generator.

Import BarrierBoxCallback.

Variable self : instance.
Variables center_x center_z base_y : Z.

(** With int (or bool) size and height the generator returns the box of
    faces around the center, rendered as text, and hands [self] back. *)
Lemma generate_run (sz h : Z) :
  int_like (size self) = Some sz ->
  int_like (height self) = Some h ->
  _generate_box_commands center_x center_z base_y self
  = (Ok (map Fill.unparse
           (Face.box center_x center_z base_y (sz / 2) h (block_name self)
              (truthy (include_floor self))
              (truthy (include_ceiling self)))),
     self).
Proof.
  intros Hs Hh.
  unfold _generate_box_commands, bind, getattr, lift, ret,
    py_floordiv, py_add.
  rewrite Hs, Hh; simpl.
  unfold Face.box, block_name.
  destruct (truthy (include_floor self)),
    (truthy (include_ceiling self)); reflexivity.
Qed.

(** Any other size or height makes it raise [TypeError]. *)
Lemma generate_raise :
  int_like (size self) = None \/ int_like (height self) = None ->
  _generate_box_commands center_x center_z base_y self
  = (Raise TypeError, self).
Proof.
  unfold _generate_box_commands, bind, getattr, lift, ret,
    py_floordiv, py_add.
  intros [H|H].
  - now rewrite H.
  - destruct (int_like (size self)); simpl; [|reflexivity].
    now rewrite H.
Qed.

End Generator.

(** ** Lemmas: the reset hook *)

Section Hook.

Import BarrierBoxCallback.

Variables Sim Obs Reward Done Info : Type.
Variable execute_cmd : string -> M Sim (Obs * Reward * Done * Info).
Variable _wrap_obs_info : Obs -> Info -> M Sim (Obs * Info).

Local Abbreviation hook :=
  (after_reset Sim Obs Reward Done Info execute_cmd _wrap_obs_info).

(** The body of the loop of [after_reset] and what follows the loop. *)
Local Abbreviation loop_body :=
  (fun (command : string) '((obs, info) : Obs * Info) =>
     bind (S := instance * Sim) (on_snd (execute_cmd command))
       (fun step => let '(obs, reward, done, info) := step in
                    ret (obs, info))).
Local Abbreviation wrap_up :=
  (fun last : Obs * Info =>
     let '(obs, info) := last in
     bind (S := instance * Sim) (on_snd (_wrap_obs_info obs info))
       (fun wrapped => let '(obs, info) := wrapped in ret (obs, info))).

(** With int size and height the hook runs the loop over the generator's
    commands for center (0,0) and base [size // 2], the third argument
    of the call being [half_size]. *)
Lemma after_reset_run self sim obs info sz h :
  int_like (size self) = Some sz ->
  int_like (height self) = Some h ->
  hook obs info (self, sim)
  = bind
      (for_each
         (map Fill.unparse
            (Face.box 0 0 (sz / 2) (sz / 2) h (block_name self)
               (truthy (include_floor self))
               (truthy (include_ceiling self))))
         loop_body (obs, info))
      wrap_up (self, sim).
Proof.
  intros Hs Hh. unfold after_reset.
  unfold bind at 1, on_fst at 1, getattr; cbn [fst snd].
  unfold bind at 1, lift, py_floordiv. rewrite Hs. cbn [Z.eqb].
  unfold bind at 1, on_fst at 1; cbn [fst snd].
  rewrite (generate_run self 0 0 (sz / 2) sz h Hs Hh).
  reflexivity.
Qed.

Lemma after_reset_raise self sim obs info :
  int_like (size self) = None \/ int_like (height self) = None ->
  hook obs info (self, sim) = (Raise TypeError, (self, sim)).
Proof.
  intros H. unfold after_reset.
  unfold bind at 1, on_fst at 1, getattr; cbn [fst snd].
  unfold bind at 1, lift, py_floordiv.
  destruct (int_like (size self)) as [sz|] eqn:Hs; [|reflexivity].
  cbn [Z.eqb].
  unfold bind at 1, on_fst at 1; cbn [fst snd].
  rewrite generate_raise; [reflexivity|].
  destruct H as [H|H]; [discriminate|now right].
Qed.

(** Once the loop runs at least once, the values [obs] and [info] had
    before it are gone. *)
Lemma loop_forgets command commands acc1 acc2 st :
  for_each (command :: commands) loop_body acc1 st
  = for_each (command :: commands) loop_body acc2 st.
Proof. destruct acc1, acc2. reflexivity. Qed.

End Hook.

Section Recording.

Import BarrierBoxCallback.

Lemma recorder_loop commands : forall acc self log,
  exists acc',
    for_each commands
      (fun (command : string) '((obs, info) : nat * nat) =>
         bind (S := instance * Recorder.Sim)
           (on_snd (Recorder.execute_cmd command))
           (fun step => let '(obs, reward, done, info) := step in
                        ret (obs, info)))
      acc (self, log)
    = (Ok acc', (self, log ++ commands)).
Proof.
  induction commands as [|c cs IH]; intros [obs info] self log.
  - exists (obs, info). cbn. now rewrite app_nil_r.
  - destruct (IH (length (log ++ [c]), length (log ++ [c])) self
                (log ++ [c])) as [acc' E].
    exists acc'. rewrite <- app_assoc in E. exact E.
Qed.

(** What the recorder has seen after the hook: the generator's commands
    for center (0,0) and base [size // 2]. *)
Lemma submitted_commands self sz h :
  int_like (size self) = Some sz ->
  int_like (height self) = Some h ->
  Recorder.submitted self
  = map Fill.unparse
      (Face.box 0 0 (sz / 2) (sz / 2) h (block_name self)
         (truthy (include_floor self))
         (truthy (include_ceiling self))).
Proof.
  intros Hs Hh.
  pose proof (after_reset_run Recorder.Sim nat Z bool nat
                Recorder.execute_cmd Recorder._wrap_obs_info
                self [] 0%nat 0%nat sz h Hs Hh) as E.
  unfold Recorder.submitted, Recorder.after_reset.
  refine (eq_trans (f_equal (fun r => snd (snd r)) E) _). clear E.
  unfold bind at 1.
  match goal with
  | |- context [for_each ?cs _ ?acc (self, [])] =>
      destruct (recorder_loop cs acc self []) as [[o i] ->]
  end.
  reflexivity.
Qed.

End Recording.

(** ** Construction and the factory *)

Section Construction.

Import BarrierBoxCallback.

Lemma py_in_valid_blocks (v : pyval) :
  py_in v valid_blocks = true <-> valid_block_type v.
Proof.
  unfold valid_block_type, py_in, valid_blocks.
  destruct v as [| b | n | s]; cbn [existsb eq_str orb].
  1-3: split; [discriminate|intros [H|[H|H]]; discriminate].
  rewrite orb_false_r, !orb_true_iff, !String.eqb_eq.
  split; (intros [H|[H|H]]; [left|right; left|right; right]); congruence.
Qed.

Lemma init_cases (sz h bt fl ce : pyval) :
  __init__ sz h bt fl ce
  = if py_in bt valid_blocks
    then Ok (Instance sz h bt fl ce)
    else Raise (ValueError (invalid_block_message bt)).
Proof.
  unfold __init__, MinecraftCallback__init__; cbn [block_type].
  now destruct (py_in bt valid_blocks).
Qed.

(** C2.  Construction raises exactly when [block_type] is not one of
    barrier, bedrock and glass, whatever the four other arguments are;
    what it raises is then the [ValueError] whose message cites the valid
    list and the offending value; with a valid block type it returns an
    object. *)
Theorem init_raises_iff_invalid (sz h bt fl ce : pyval) :
  ((exists e, __init__ sz h bt fl ce = Raise e) <-> ~ valid_block_type bt)
  /\ (forall e, __init__ sz h bt fl ce = Raise e ->
        e = ValueError
              ("block_type must be one of ['barrier', 'bedrock', 'glass'], got '"
                 +:+ py_str bt +:+ "'"))
  /\ ((exists self, __init__ sz h bt fl ce = Ok self) <-> valid_block_type bt).
Proof.
  rewrite init_cases, <- py_in_valid_blocks.
  destruct (py_in bt valid_blocks).
  - split; [|split].
    + split; [intros [e H]; discriminate|intros H; now contradiction H].
    + intros e H; discriminate.
    + split; eauto.
  - split; [|split].
    + split; [intros _; discriminate|intros _; eauto].
    + intros e [= <-]; reflexivity.
    + split; [intros [self H]; discriminate|discriminate].
Qed.

(** C6.  With a block type among barrier, bedrock and glass, construction
    succeeds and each attribute of the object is the argument passed for
    it. *)
Theorem init_stores_arguments (sz h bt fl ce : pyval) :
  valid_block_type bt ->
  exists self,
    __init__ sz h bt fl ce = Ok self
    /\ size self = sz /\ height self = h /\ block_type self = bt
    /\ include_floor self = fl /\ include_ceiling self = ce.
Proof.
  intros H. apply py_in_valid_blocks in H.
  rewrite init_cases, H. eexists; repeat split.
Qed.

Lemma init_stores_arguments_witness :
  exists self,
    __init__ (PyInt 30) (PyInt 15) (PyStr "bedrock")
      (PyBool true) (PyBool true) = Ok self
    /\ size self = PyInt 30 /\ height self = PyInt 15
    /\ block_type self = PyStr "bedrock"
    /\ include_floor self = PyBool true
    /\ include_ceiling self = PyBool true.
Proof.
  apply (init_stores_arguments (PyInt 30) (PyInt 15) (PyStr "bedrock")
           (PyBool true) (PyBool true)).
  right; left; reflexivity.
Defined.

(** C5.  Whatever the loader, when the loaded mapping has no
    [barrier_box] key the factory returns [None], and when the key holds
    an empty mapping it returns the object with size 25, height 10, block
    type barrier and both flags false. *)
Theorem create_from_conf_absent_or_empty
    (Source : Type)
    (load_data_from_conf : Source -> result (gmap string conf_value))
    (source : Source) (data : gmap string conf_value) :
  load_data_from_conf source = Ok data ->
  (data !! "barrier_box" = None ->
     create_from_conf Source load_data_from_conf source = Ok None)
  /\ (data !! "barrier_box" = Some (CMapping ∅) ->
        create_from_conf Source load_data_from_conf source
        = Ok (Some (Instance (PyInt 25) (PyInt 10) (PyStr "barrier")
                      (PyBool false) (PyBool false)))).
Proof.
  intros Hload. unfold create_from_conf. rewrite Hload.
  split; intros ->; reflexivity.
Qed.

Lemma create_from_conf_absent_or_empty_witness :
  create_from_conf _ load_mapping ∅ = Ok None
  /\ create_from_conf _ load_mapping {[ "barrier_box" := CMapping ∅ ]}
     = Ok (Some (Instance (PyInt 25) (PyInt 10) (PyStr "barrier")
                   (PyBool false) (PyBool false))).
Proof.
  split.
  - apply (create_from_conf_absent_or_empty _ load_mapping ∅ ∅);
      reflexivity.
  - apply (create_from_conf_absent_or_empty _ load_mapping
             {[ "barrier_box" := CMapping ∅ ]}
             {[ "barrier_box" := CMapping ∅ ]});
      reflexivity.
Defined.

End Construction.

(** ** The command generator *)

Section GeneratorClaims.

Import BarrierBoxCallback Fill.

(** C3.  For every center, base elevation and int size and height, the
    first four commands decode to the four walls: north is the slab at
    [z - half], south at [z + half], west at [x - half], east at
    [x + half]; each runs over the whole footprint in the other
    horizontal axis and over [y .. y + height], with [half = size // 2]. *)
Theorem generator_walls (self : instance) (x z y sz h : Z) :
  int_like (size self) = Some sz ->
  int_like (height self) = Some h ->
  exists commands rest,
    _generate_box_commands x z y self = (Ok commands, self)
    /\ parse_all commands
       = Some
           (Region (x - sz / 2) y (z - sz / 2)
                   (x + sz / 2) (y + h) (z - sz / 2) (block_name self)
            :: Region (x - sz / 2) y (z + sz / 2)
                      (x + sz / 2) (y + h) (z + sz / 2) (block_name self)
            :: Region (x - sz / 2) y (z - sz / 2)
                      (x - sz / 2) (y + h) (z + sz / 2) (block_name self)
            :: Region (x + sz / 2) y (z - sz / 2)
                      (x + sz / 2) (y + h) (z + sz / 2) (block_name self)
            :: rest).
Proof.
  intros Hs Hh. eexists; eexists; split.
  - apply (generate_run self x z y sz h Hs Hh).
  - rewrite parse_all_unparse. reflexivity.
Qed.

Lemma generator_walls_witness :
  exists commands rest,
    _generate_box_commands 0 0 0 default_instance
    = (Ok commands, default_instance)
    /\ parse_all commands
       = Some
           (Region (-12) 0 (-12) 12 10 (-12) "minecraft:barrier"
            :: Region (-12) 0 12 12 10 12 "minecraft:barrier"
            :: Region (-12) 0 (-12) (-12) 10 12 "minecraft:barrier"
            :: Region 12 0 (-12) 12 10 12 "minecraft:barrier"
            :: rest).
Proof.
  apply (generator_walls default_instance 0 0 0 25 10); reflexivity.
Defined.

(** C4.  The output is north, south, west, east, then one floor command
    (the slab at the base) exactly when [include_floor] is true, then one
    ceiling command (the slab at base + height) exactly when
    [include_ceiling] is true: 4, 5 or 6 commands. *)
Theorem generator_order_and_count (self : instance) (x z y sz h : Z) :
  int_like (size self) = Some sz ->
  int_like (height self) = Some h ->
  exists commands,
    _generate_box_commands x z y self = (Ok commands, self)
    /\ parse_all commands
       = Some
           ([Face.north x z y (sz / 2) h (block_name self);
             Face.south x z y (sz / 2) h (block_name self);
             Face.west x z y (sz / 2) h (block_name self);
             Face.east x z y (sz / 2) h (block_name self)]
            ++ (if truthy (include_floor self)
                then [Face.floor x z y (sz / 2) (block_name self)]
                else [])
            ++ (if truthy (include_ceiling self)
                then [Face.ceiling x z y (sz / 2) h (block_name self)]
                else []))
    /\ length commands
       = (4 + (if truthy (include_floor self) then 1 else 0)
            + (if truthy (include_ceiling self) then 1 else 0))%nat.
Proof.
  intros Hs Hh. eexists; split; [|split].
  - apply (generate_run self x z y sz h Hs Hh).
  - rewrite parse_all_unparse. reflexivity.
  - rewrite length_map. unfold Face.box.
    now destruct (truthy (include_floor self)),
      (truthy (include_ceiling self)).
Qed.

Lemma generator_order_and_count_witness :
  exists commands,
    _generate_box_commands 0 0 64 bedrock_instance
    = (Ok commands, bedrock_instance)
    /\ parse_all commands
       = Some [Region (-15) 64 (-15) 15 79 (-15) "minecraft:bedrock";
               Region (-15) 64 15 15 79 15 "minecraft:bedrock";
               Region (-15) 64 (-15) (-15) 79 15 "minecraft:bedrock";
               Region 15 64 (-15) 15 79 15 "minecraft:bedrock";
               Region (-15) 64 (-15) 15 64 15 "minecraft:bedrock";
               Region (-15) 79 (-15) 15 79 15 "minecraft:bedrock"]
    /\ length commands = 6%nat.
Proof.
  apply (generator_order_and_count bedrock_instance 0 0 64 30 15);
    reflexivity.
Defined.

Lemma generate_keeps_self (self : instance) (x z y : Z) :
  snd (_generate_box_commands x z y self) = self.
Proof.
  destruct (int_like (size self)) as [sz|] eqn:Hs.
  - destruct (int_like (height self)) as [h|] eqn:Hh.
    + now rewrite (generate_run self x z y sz h Hs Hh).
    + now rewrite generate_raise by now right.
  - now rewrite generate_raise by now left.
Qed.

(** C7.  A call of the generator leaves every attribute of [self] as it
    was, and a second call with the same arguments, run on the store the
    first one left, gives the same result as the first. *)
Theorem generator_pure (self : instance) (x z y : Z) :
  let first := _generate_box_commands x z y self in
  let second := _generate_box_commands x z y (snd first) in
  fst second = fst first
  /\ size (snd first) = size self
  /\ height (snd first) = height self
  /\ block_type (snd first) = block_type self
  /\ include_floor (snd first) = include_floor self
  /\ include_ceiling (snd first) = include_ceiling self
  /\ snd second = self.
Proof.
  cbv zeta. rewrite !generate_keeps_self. repeat split.
Qed.

End GeneratorClaims.

Section Footprint.

Import BarrierBoxCallback Fill.

Lemma twice_half_odd (n : Z) : 2 * (n / 2) + 1 = n <-> Z.odd n = true.
Proof.
  rewrite (Zodd_mod n), Z.eqb_eq.
  pose proof (Z.div_mod n 2 ltac:(lia)).
  pose proof (Z.mod_pos_bound n 2 ltac:(lia)). lia.
Qed.

Lemma twice_half_even (n : Z) : 2 * (n / 2) + 1 = n + 1 <-> Z.even n = true.
Proof.
  rewrite (Zeven_mod n), Z.eqb_eq.
  pose proof (Z.div_mod n 2 ltac:(lia)).
  pose proof (Z.mod_pos_bound n 2 ltac:(lia)). lia.
Qed.

(** C8.  Along x the north and south walls, and along z the west and east
    walls, run from center - half to center + half, which is
    [2 * (size // 2) + 1] block positions; that number is [size] exactly
    when [size] is odd and [size + 1] exactly when it is even.  For
    [size >= 0] the corners are in order, so the number is a count of
    blocks. *)
Theorem footprint_blocks (self : instance) (x z y sz h : Z) :
  int_like (size self) = Some sz ->
  int_like (height self) = Some h ->
  exists commands north south west east rest,
    _generate_box_commands x z y self = (Ok commands, self)
    /\ parse_all commands = Some (north :: south :: west :: east :: rest)
    /\ Forall (fun r => x1 r = x - sz / 2 /\ x2 r = x + sz / 2
                        /\ x_blocks r = 2 * (sz / 2) + 1)
         [north; south]
    /\ Forall (fun r => z1 r = z - sz / 2 /\ z2 r = z + sz / 2
                        /\ z_blocks r = 2 * (sz / 2) + 1)
         [west; east]
    /\ (2 * (sz / 2) + 1 = sz <-> Z.odd sz = true)
    /\ (2 * (sz / 2) + 1 = sz + 1 <-> Z.even sz = true)
    /\ (0 <= sz -> x - sz / 2 <= x + sz / 2 /\ z - sz / 2 <= z + sz / 2).
Proof.
  intros Hs Hh.
  do 6 eexists.
  split; [apply (generate_run self x z y sz h Hs Hh)|].
  split; [rewrite parse_all_unparse; reflexivity|].
  split; [|split; [|split; [|split]]].
  - repeat (apply List.Forall_cons;
            [unfold x_blocks, Face.north, Face.south; cbn [x1 x2];
             lia|]).
    apply List.Forall_nil.
  - repeat (apply List.Forall_cons;
            [unfold z_blocks, Face.west, Face.east; cbn [z1 z2];
             lia|]).
    apply List.Forall_nil.
  - apply twice_half_odd.
  - apply twice_half_even.
  - intros Hsz. pose proof (Z.div_pos sz 2 Hsz ltac:(lia)). lia.
Qed.

Lemma footprint_blocks_witness :
  exists commands north south west east rest,
    _generate_box_commands 0 0 0 bedrock_instance
    = (Ok commands, bedrock_instance)
    /\ parse_all commands = Some (north :: south :: west :: east :: rest)
    /\ Forall (fun r => x1 r = 0 - 30 / 2 /\ x2 r = 0 + 30 / 2
                        /\ x_blocks r = 2 * (30 / 2) + 1)
         [north; south]
    /\ Forall (fun r => z1 r = 0 - 30 / 2 /\ z2 r = 0 + 30 / 2
                        /\ z_blocks r = 2 * (30 / 2) + 1)
         [west; east]
    /\ (2 * (30 / 2) + 1 = 30 <-> Z.odd 30 = true)
    /\ (2 * (30 / 2) + 1 = 30 + 1 <-> Z.even 30 = true)
    /\ (0 <= 30 -> 0 - 30 / 2 <= 0 + 30 / 2 /\ 0 - 30 / 2 <= 0 + 30 / 2).
Proof.
  apply (footprint_blocks bedrock_instance 0 0 0 30 15); reflexivity.
Defined.

End Footprint.

Section Shape.

Import BarrierBoxCallback Fill.

(** C10.  With a block type among barrier, bedrock and glass, [size >= 0]
    and [height >= 0], the stored block type is a string [s] of the valid
    list and every command is the text
    [/fill x1 y1 z1 x2 y2 z2 minecraft:s] with decimal integers, which
    decodes to these seven fields, and [x1 <= x2], [y1 <= y2],
    [z1 <= z2]. *)
Theorem commands_well_formed (self : instance) (x z y sz h : Z) :
  valid_block_type (block_type self) ->
  int_like (size self) = Some sz -> 0 <= sz ->
  int_like (height self) = Some h -> 0 <= h ->
  exists s commands,
    block_type self = PyStr s /\ In s valid_blocks
    /\ _generate_box_commands x z y self = (Ok commands, self)
    /\ Forall
         (fun command =>
            exists a b c d e f : Z,
              command
              = "/fill " +:+ str_int a +:+ " " +:+ str_int b
                  +:+ " " +:+ str_int c +:+ " " +:+ str_int d
                  +:+ " " +:+ str_int e +:+ " " +:+ str_int f
                  +:+ " minecraft:" +:+ s
              /\ parse_fill command
                 = Some (Region a b c d e f ("minecraft:" +:+ s))
              /\ a <= d /\ b <= e /\ c <= f)
         commands.
Proof.
  intros Hbt Hs Hsz Hh Hhz.
  assert (exists s, block_type self = PyStr s /\ In s valid_blocks)
    as (s & Hstr & Hin).
  { destruct Hbt as [H|[H|H]]; rewrite H; eexists; split;
      try reflexivity; cbn; auto. }
  exists s. eexists. split; [exact Hstr|]. split; [exact Hin|].
  split; [apply (generate_run self x z y sz h Hs Hh)|].
  pose proof (Z.div_pos sz 2 Hsz ltac:(lia)) as Hhalf.
  unfold block_name; rewrite Hstr; cbn [py_str].
  unfold Face.box.
  destruct (truthy (include_floor self)),
    (truthy (include_ceiling self));
    cbn [map app];
    repeat (apply List.Forall_cons;
            [do 6 eexists; split; [|split];
             [|apply parse_fill_unparse|];
             [reflexivity|cbn [x1 y1 z1 x2 y2 z2]; lia]|]);
    apply List.Forall_nil.
Qed.

Lemma commands_well_formed_witness :
  exists s commands,
    block_type bedrock_instance = PyStr s /\ In s valid_blocks
    /\ _generate_box_commands 0 0 64 bedrock_instance
       = (Ok commands, bedrock_instance)
    /\ Forall
         (fun command =>
            exists a b c d e f : Z,
              command
              = "/fill " +:+ str_int a +:+ " " +:+ str_int b
                  +:+ " " +:+ str_int c +:+ " " +:+ str_int d
                  +:+ " " +:+ str_int e +:+ " " +:+ str_int f
                  +:+ " minecraft:" +:+ s
              /\ parse_fill command
                 = Some (Region a b c d e f ("minecraft:" +:+ s))
              /\ a <= d /\ b <= e /\ c <= f)
         commands.
Proof.
  apply (commands_well_formed bedrock_instance 0 0 64 30 15).
  - right; left; reflexivity.
  - reflexivity.
  - lia.
  - reflexivity.
  - lia.
Defined.

End Shape.

(** ** The reset hook *)

Section HookClaims.

Import BarrierBoxCallback Fill.

(** C9.  What [after_reset] returns, and the state it leaves, do not
    depend on the [obs] and [info] it is called with: on the same object
    and the same simulator state, two calls with different [obs] and
    [info] give the same outcome.  The generator either raises, before
    the loop, or yields at least four commands, and the first iteration
    rebinds both names. *)
Theorem after_reset_forgets_obs_info
    (Sim Obs Reward Done Info : Type)
    (execute_cmd : string -> M Sim (Obs * Reward * Done * Info))
    (_wrap_obs_info : Obs -> Info -> M Sim (Obs * Info))
    (self : instance) (sim : Sim) (obs1 obs2 : Obs) (info1 info2 : Info) :
  after_reset Sim Obs Reward Done Info execute_cmd _wrap_obs_info
    obs1 info1 (self, sim)
  = after_reset Sim Obs Reward Done Info execute_cmd _wrap_obs_info
      obs2 info2 (self, sim).
Proof.
  destruct (int_like (size self)) as [sz|] eqn:Hs;
    [destruct (int_like (height self)) as [h|] eqn:Hh|].
  - rewrite !(after_reset_run _ _ _ _ _ _ _ self sim _ _ sz h Hs Hh).
    unfold bind at 1 3. unfold Face.box. cbn [map app].
    now rewrite (loop_forgets _ _ _ _ _ execute_cmd _ _
                   (obs1, info1) (obs2, info2)).
  - rewrite !after_reset_raise by now right. reflexivity.
  - rewrite !after_reset_raise by now left. reflexivity.
Qed.

(** C1, the claim as stated, fails.  For size 25, height 10 and a floor,
    the recorded commands decode to regions that do not all run over
    [y = 0 .. 10]; they do not even all run over [b .. b + 10] for one
    base [b], the floor being a slab of a single layer. *)
Lemma after_reset_elevation_counterexample :
  exists regions,
    parse_all (Recorder.submitted floored_instance) = Some regions
    /\ ~ Forall (fun r => y1 r = 0 /\ y2 r = 10) regions
    /\ ~ exists b, Forall (fun r => y1 r = b /\ y2 r = b + 10) regions.
Proof.
  eexists. split; [vm_compute; reflexivity|]. split.
  - intros H. apply List.Forall_inv in H. cbn in H. lia.
  - intros [b H].
    do 4 apply List.Forall_inv_tail in H.
    apply List.Forall_inv in H. cbn in H. lia.
Qed.

(** C1, amended.  With int size and height, the commands the hook
    submits are the generator's commands for the center (0,0) and one
    base elevation [b]: x and z run over [-half .. half], the four walls
    over [b .. b + height], an enabled floor is the layer [y = b] and an
    enabled ceiling the layer [y = b + height]. *)
Theorem after_reset_commands (self : instance) (sz h : Z) :
  int_like (size self) = Some sz ->
  int_like (height self) = Some h ->
  exists b,
    _generate_box_commands 0 0 b self = (Ok (Recorder.submitted self), self)
    /\ parse_all (Recorder.submitted self)
       = Some
           ([Face.north 0 0 b (sz / 2) h (block_name self);
             Face.south 0 0 b (sz / 2) h (block_name self);
             Face.west 0 0 b (sz / 2) h (block_name self);
             Face.east 0 0 b (sz / 2) h (block_name self)]
            ++ (if truthy (include_floor self)
                then [Face.floor 0 0 b (sz / 2) (block_name self)]
                else [])
            ++ (if truthy (include_ceiling self)
                then [Face.ceiling 0 0 b (sz / 2) h (block_name self)]
                else [])).
Proof.
  intros Hs Hh. exists (sz / 2).
  rewrite (submitted_commands self sz h Hs Hh). split.
  - apply (generate_run self 0 0 (sz / 2) sz h Hs Hh).
  - apply parse_all_unparse.
Qed.

Lemma after_reset_commands_witness :
  exists b,
    _generate_box_commands 0 0 b floored_instance
    = (Ok (Recorder.submitted floored_instance), floored_instance)
    /\ parse_all (Recorder.submitted floored_instance)
       = Some
           ([Face.north 0 0 b (25 / 2) 10 (block_name floored_instance);
             Face.south 0 0 b (25 / 2) 10 (block_name floored_instance);
             Face.west 0 0 b (25 / 2) 10 (block_name floored_instance);
             Face.east 0 0 b (25 / 2) 10 (block_name floored_instance)]
            ++ (if truthy (include_floor floored_instance)
                then [Face.floor 0 0 b (25 / 2)
                        (block_name floored_instance)]
                else [])
            ++ (if truthy (include_ceiling floored_instance)
                then [Face.ceiling 0 0 b (25 / 2) 10
                        (block_name floored_instance)]
                else [])).
Proof.
  apply (after_reset_commands floored_instance 25 10); reflexivity.
Defined.

(** What the hook passes as the base: for the default object the walls
    run over [y = 12 .. 22], the third argument of the call in
    [after_reset] being [half_size]. *)
Lemma after_reset_default_commands :
  Recorder.submitted default_instance
  = ["/fill -12 12 -12 12 22 -12 minecraft:barrier";
     "/fill -12 12 12 12 22 12 minecraft:barrier";
     "/fill -12 12 -12 -12 22 12 minecraft:barrier";
     "/fill 12 12 -12 12 22 12 minecraft:barrier"].
Proof. vm_compute. reflexivity. Qed.

End HookClaims.

(** ** Further properties: the text of [__repr__] *)

Section ReprText.

Import BarrierBoxCallback Repr.

Lemma lacks_comma_digits (d : uint) :
  lacks "," (NilEmpty.string_of_uint d) = true.
Proof. induction d; simpl; auto. Qed.

Lemma lacks_comma_str_int (n : Z) : lacks "," (str_int n) = true.
Proof.
  unfold str_int.
  destruct (Z.to_int n) as [d|d]; simpl;
    destruct d; simpl; auto using lacks_comma_digits.
Qed.

Lemma cut_at_token (c : ascii) (t r : string) :
  lacks c t = true -> cut_at c (t +:+ String c r) = Some (t, r).
Proof.
  induction t as [|a t IH]; simpl; intros H.
  - now rewrite Ascii.eqb_refl.
  - apply andb_prop in H as [Ha Ht].
    destruct (Ascii.eqb a c); [discriminate|].
    now rewrite IH.
Qed.

Lemma strip_prefix (p r : string) : strip p (p +:+ r) = Some r.
Proof.
  induction p as [|a p IH]; simpl; [reflexivity|].
  now rewrite Ascii.eqb_refl.
Qed.

Lemma parse_bool_str (b : bool) (c : ascii) :
  (c = "," \/ c = ")")%char ->
  lacks c (py_str (PyBool b)) = true
  /\ parse_bool (py_str (PyBool b)) = Some b.
Proof. intros [-> | ->]; destruct b; split; reflexivity. Qed.

(** The text of [__repr__] decodes to the object it was made from, when
    size and height are ints, the flags are bools and the block type is a
    string without apostrophe; so two such objects with the same text are
    the same object, and the call leaves the object as it was. *)
Theorem repr_round_trip (sz h : Z) (s : string) (fl ce : bool) :
  lacks "'" s = true ->
  exists text,
    __repr__ (Instance (PyInt sz) (PyInt h) (PyStr s) (PyBool fl) (PyBool ce))
    = (Ok text,
       Instance (PyInt sz) (PyInt h) (PyStr s) (PyBool fl) (PyBool ce))
    /\ parse_repr text
       = Some (Instance (PyInt sz) (PyInt h) (PyStr s)
                 (PyBool fl) (PyBool ce)).
Proof.
  intros Hs.
  exists
    ("BarrierBoxCallback(size="
       +:+ str_int sz +:+ String ","
      (" height="
       +:+ str_int h +:+ String ","
      (" block_type='"
       +:+ s +:+ String "'"
      (", include_floor="
       +:+ py_str (PyBool fl) +:+ String ","
      (" include_ceiling="
       +:+ py_str (PyBool ce) +:+ String ")" EmptyString))))).
  split; [reflexivity|].
  unfold parse_repr.
  rewrite strip_prefix; cbn [mbind option_bind].
  rewrite cut_at_token by apply lacks_comma_str_int; cbn [mbind option_bind].
  rewrite parse_int_str_int; cbn [mbind option_bind].
  rewrite strip_prefix; cbn [mbind option_bind].
  rewrite cut_at_token by apply lacks_comma_str_int; cbn [mbind option_bind].
  rewrite parse_int_str_int; cbn [mbind option_bind].
  rewrite strip_prefix; cbn [mbind option_bind].
  rewrite cut_at_token by exact Hs; cbn [mbind option_bind].
  rewrite strip_prefix; cbn [mbind option_bind].
  rewrite cut_at_token by (apply parse_bool_str; now left);
    cbn [mbind option_bind].
  rewrite (proj2 (parse_bool_str fl "," ltac:(now left)));
    cbn [mbind option_bind].
  rewrite strip_prefix; cbn [mbind option_bind].
  rewrite cut_at_token by (apply parse_bool_str; now right);
    cbn [mbind option_bind].
  rewrite (proj2 (parse_bool_str ce ")" ltac:(now right)));
    cbn [mbind option_bind].
  reflexivity.
Qed.

Lemma repr_round_trip_witness :
  exists text,
    __repr__ bedrock_instance = (Ok text, bedrock_instance)
    /\ parse_repr text = Some bedrock_instance.
Proof.
  apply (repr_round_trip 30 15 "bedrock" true true). reflexivity.
Defined.

End ReprText.

(** ** Further properties: the command generator *)

Section GeneratorMore.

Import BarrierBoxCallback Fill Geometry.

(** The command format is unambiguous: two formatted commands with the
    same text have the same six coordinates and the same block. *)
Theorem fill_injective (a b c d e f a' b' c' d' e' f' : Z)
    (blk blk' : string) :
  fill a b c d e f blk = fill a' b' c' d' e' f' blk' ->
  a = a' /\ b = b' /\ c = c' /\ d = d' /\ e = e' /\ f = f' /\ blk = blk'.
Proof.
  intros H. apply (f_equal parse_fill) in H.
  rewrite !parse_fill_fill in H. injection H. intuition.
Qed.

Lemma fill_injective_witness :
  (-12) = (-12) /\ 0 = 0 /\ (-12) = (-12) /\ 12 = 12 /\ 10 = 10
  /\ (-12) = (-12) /\ "minecraft:barrier" = "minecraft:barrier".
Proof.
  apply (fill_injective (-12) 0 (-12) 12 10 (-12) (-12) 0 (-12) 12 10 (-12)
           "minecraft:barrier" "minecraft:barrier").
  reflexivity.
Defined.


Lemma box_translate (x z y half h dx dy dz : Z) (blk : string)
    (fl ce : bool) :
  Face.box (x + dx) (z + dz) (y + dy) half h blk fl ce
  = map (translate dx dy dz) (Face.box x z y half h blk fl ce).
Proof.
  unfold Face.box, Face.north, Face.south, Face.west, Face.east,
    Face.floor, Face.ceiling, translate.
  destruct fl, ce; cbn [map app x1 y1 z1 x2 y2 z2 block];
    repeat (f_equal; try lia).
Qed.

(** Moving the center and the base moves every region by the same
    amount: the commands for center [(x + dx, z + dz)] and base [y + dy]
    decode to the regions for [(x, z)] and [y], each translated by
    [(dx, dy, dz)]. *)
Theorem generator_translation (self : instance) (x z y dx dy dz sz h : Z) :
  int_like (size self) = Some sz ->
  int_like (height self) = Some h ->
  exists commands moved regions,
    _generate_box_commands x z y self = (Ok commands, self)
    /\ _generate_box_commands (x + dx) (z + dz) (y + dy) self
       = (Ok moved, self)
    /\ parse_all commands = Some regions
    /\ parse_all moved = Some (map (translate dx dy dz) regions).
Proof.
  intros Hs Hh. do 3 eexists.
  split; [apply (generate_run self x z y sz h Hs Hh)|].
  split; [apply (generate_run self _ _ _ sz h Hs Hh)|].
  split; [apply parse_all_unparse|].
  rewrite box_translate. apply parse_all_unparse.
Qed.

Lemma generator_translation_witness :
  exists commands moved regions,
    _generate_box_commands 0 0 0 bedrock_instance
    = (Ok commands, bedrock_instance)
    /\ _generate_box_commands (0 + 100) (0 + (-40)) (0 + 64) bedrock_instance
       = (Ok moved, bedrock_instance)
    /\ parse_all commands = Some regions
    /\ parse_all moved = Some (map (translate 100 64 (-40)) regions).
Proof.
  apply (generator_translation bedrock_instance 0 0 0 100 64 (-40) 30 15);
    reflexivity.
Defined.

End GeneratorMore.

Section Enclosure.

Import BarrierBoxCallback Fill Geometry.

Lemma inside_spec (r : region) (px py pz : Z) :
  inside r px py pz = true
  <-> Z.min (x1 r) (x2 r) <= px <= Z.max (x1 r) (x2 r)
      /\ Z.min (y1 r) (y2 r) <= py <= Z.max (y1 r) (y2 r)
      /\ Z.min (z1 r) (z2 r) <= pz <= Z.max (z1 r) (z2 r).
Proof.
  unfold inside. rewrite !andb_true_iff, !Z.leb_le. tauto.
Qed.

Lemma span_abs (c half p : Z) :
  Z.min (c - half) (c + half) <= p <= Z.max (c - half) (c + half)
  <-> c - Z.abs half <= p <= c + Z.abs half.
Proof. lia. Qed.

Lemma span_point (c p : Z) : Z.min c c <= p <= Z.max c c <-> p = c.
Proof. lia. Qed.

Lemma covered_box (x z y half h : Z) (blk : string) (fl ce : bool)
    (px py pz : Z) :
  covered (Face.box x z y half h blk fl ce) px py pz = true
  <-> x - Z.abs half <= px <= x + Z.abs half
      /\ z - Z.abs half <= pz <= z + Z.abs half
      /\ Z.min y (y + h) <= py <= Z.max y (y + h)
      /\ (px = x - half \/ px = x + half
          \/ pz = z - half \/ pz = z + half
          \/ (fl = true /\ py = y)
          \/ (ce = true /\ py = y + h)).
Proof.
  assert ((false = true) <-> False) as Hf by (split; [discriminate|tauto]).
  assert ((true = true) <-> True) as Ht by tauto.
  assert (px = x - half -> x - Z.abs half <= px <= x + Z.abs half)
    as Hx1 by lia.
  assert (px = x + half -> x - Z.abs half <= px <= x + Z.abs half)
    as Hx2 by lia.
  assert (pz = z - half -> z - Z.abs half <= pz <= z + Z.abs half)
    as Hz1 by lia.
  assert (pz = z + half -> z - Z.abs half <= pz <= z + Z.abs half)
    as Hz2 by lia.
  assert (py = y -> Z.min y (y + h) <= py <= Z.max y (y + h))
    as Hy1 by lia.
  assert (py = y + h -> Z.min y (y + h) <= py <= Z.max y (y + h))
    as Hy2 by lia.
  unfold covered, Face.box.
  destruct fl, ce; cbn [app existsb];
    rewrite ?orb_false_r, !orb_true_iff, !inside_spec;
    unfold Face.north, Face.south, Face.west, Face.east,
      Face.floor, Face.ceiling;
    cbn [x1 y1 z1 x2 y2 z2];
    rewrite ?span_abs, ?span_point, ?Hf, ?Ht;
    tauto.
Qed.

(** The regions of the generated commands hold exactly the faces of the
    box: a block is filled iff it lies within the footprint and the height
    range and is on one of the four side faces, or on the base layer when
    the floor is on, or on the top layer when the ceiling is on.  So the
    sides are closed and nothing strictly inside is touched. *)
Theorem box_is_the_boundary (self : instance) (x z y sz h : Z) :
  int_like (size self) = Some sz ->
  int_like (height self) = Some h ->
  exists commands regions,
    _generate_box_commands x z y self = (Ok commands, self)
    /\ parse_all commands = Some regions
    /\ forall px py pz,
         covered regions px py pz = true
         <-> x - Z.abs (sz / 2) <= px <= x + Z.abs (sz / 2)
             /\ z - Z.abs (sz / 2) <= pz <= z + Z.abs (sz / 2)
             /\ Z.min y (y + h) <= py <= Z.max y (y + h)
             /\ (px = x - sz / 2 \/ px = x + sz / 2
                 \/ pz = z - sz / 2 \/ pz = z + sz / 2
                 \/ (truthy (include_floor self) = true /\ py = y)
                 \/ (truthy (include_ceiling self) = true /\ py = y + h)).
Proof.
  intros Hs Hh. do 2 eexists.
  split; [apply (generate_run self x z y sz h Hs Hh)|].
  split; [apply parse_all_unparse|].
  intros px py pz. apply covered_box.
Qed.

Lemma box_is_the_boundary_witness :
  exists commands regions,
    _generate_box_commands 0 0 64 default_instance
    = (Ok commands, default_instance)
    /\ parse_all commands = Some regions
    /\ forall px py pz,
         covered regions px py pz = true
         <-> 0 - Z.abs (25 / 2) <= px <= 0 + Z.abs (25 / 2)
             /\ 0 - Z.abs (25 / 2) <= pz <= 0 + Z.abs (25 / 2)
             /\ Z.min 64 (64 + 10) <= py <= Z.max 64 (64 + 10)
             /\ (px = 0 - 25 / 2 \/ px = 0 + 25 / 2
                 \/ pz = 0 - 25 / 2 \/ pz = 0 + 25 / 2
                 \/ (truthy (include_floor default_instance) = true
                     /\ py = 64)
                 \/ (truthy (include_ceiling default_instance) = true
                     /\ py = 64 + 10)).
Proof.
  apply (box_is_the_boundary default_instance 0 0 64 25 10); reflexivity.
Defined.

(** For size 0 or 1 the half size is 0: the four wall commands are one and
    the same text, a single column at the center from the base to
    base + height. *)
Theorem tiny_box_is_a_column (self : instance) (x z y sz h : Z) :
  int_like (size self) = Some sz ->
  0 <= sz <= 1 ->
  int_like (height self) = Some h ->
  exists command rest,
    _generate_box_commands x z y self
    = (Ok (command :: command :: command :: command :: rest), self)
    /\ parse_fill command
       = Some (Region x y z x (y + h) z (block_name self)).
Proof.
  intros Hs Hsz Hh.
  assert (sz / 2 = 0) as Hhalf by (apply Z.div_small; lia).
  rewrite (generate_run self x z y sz h Hs Hh), Hhalf.
  unfold Face.box, Face.north, Face.south, Face.west, Face.east.
  rewrite !Z.sub_0_r, !Z.add_0_r. cbn [map app].
  do 2 eexists. split; [reflexivity|].
  apply parse_fill_unparse.
Qed.

Lemma tiny_box_is_a_column_witness :
  exists command rest,
    _generate_box_commands 3 4 64
      (Instance (PyInt 1) (PyInt 10) (PyStr "glass")
         (PyBool false) (PyBool false))
    = (Ok (command :: command :: command :: command :: rest),
       Instance (PyInt 1) (PyInt 10) (PyStr "glass")
         (PyBool false) (PyBool false))
    /\ parse_fill command
       = Some (Region 3 64 4 3 (64 + 10) 4
                 (block_name
                    (Instance (PyInt 1) (PyInt 10) (PyStr "glass")
                       (PyBool false) (PyBool false)))).
Proof.
  apply (tiny_box_is_a_column
           (Instance (PyInt 1) (PyInt 10) (PyStr "glass")
              (PyBool false) (PyBool false)) 3 4 64 1 10).
  - reflexivity.
  - lia.
  - reflexivity.
Defined.

End Enclosure.

(** ** Further properties: the factory *)

Section FactoryMore.

Import BarrierBoxCallback.

Variable Source : Type.
Variable load_data_from_conf : Source -> result (gmap string conf_value).

Local Abbreviation factory := (create_from_conf Source load_data_from_conf).

Lemma factory_on_mapping (source : Source) (data : gmap string conf_value)
    (m : gmap string pyval) :
  load_data_from_conf source = Ok data ->
  data !! "barrier_box" = Some (CMapping m) ->
  factory source
  = if py_in (dict_get m "block_type" (PyStr "barrier")) valid_blocks
    then Ok (Some (Instance
                     (dict_get m "size" (PyInt 25))
                     (dict_get m "height" (PyInt 10))
                     (dict_get m "block_type" (PyStr "barrier"))
                     (dict_get m "include_floor" (PyBool false))
                     (dict_get m "include_ceiling" (PyBool false))))
    else Raise (ValueError
                  (invalid_block_message
                     (dict_get m "block_type" (PyStr "barrier")))).
Proof.
  intros Hload Hkey. unfold create_from_conf.
  rewrite Hload, Hkey, init_cases.
  now destruct (py_in _ valid_blocks).
Qed.

(** Whenever the factory returns an object, the [barrier_box] entry is a
    mapping, each attribute of the object is the entry of the mapping under
    its key, or the default (25, 10, barrier, False, False) when the key is
    missing, and the block type is one of barrier, bedrock and glass. *)
Theorem factory_object (source : Source) (self : instance) :
  factory source = Ok (Some self) ->
  exists data m,
    load_data_from_conf source = Ok data
    /\ data !! "barrier_box" = Some (CMapping m)
    /\ size self = default (PyInt 25) (m !! "size")
    /\ height self = default (PyInt 10) (m !! "height")
    /\ block_type self = default (PyStr "barrier") (m !! "block_type")
    /\ include_floor self = default (PyBool false) (m !! "include_floor")
    /\ include_ceiling self
       = default (PyBool false) (m !! "include_ceiling")
    /\ valid_block_type (block_type self).
Proof.
  intros H.
  destruct (load_data_from_conf source) as [data|e] eqn:Hload;
    [|unfold create_from_conf in H; rewrite Hload in H; discriminate].
  destruct (data !! "barrier_box") as [[v|m]|] eqn:Hkey;
    try (unfold create_from_conf in H; rewrite Hload, Hkey in H;
         discriminate).
  rewrite (factory_on_mapping source data m Hload Hkey) in H.
  destruct (py_in _ valid_blocks) eqn:Hin; [|discriminate].
  injection H as <-. exists data, m. cbn [size height block_type
    include_floor include_ceiling].
  apply py_in_valid_blocks in Hin.
  unfold dict_get in *.
  repeat split; try assumption;
    match goal with |- context [m !! ?k] => now destruct (m !! k) end.
Qed.

(** With the loader succeeding, the factory raises in exactly two cases:
    the [barrier_box] entry is not a mapping ([AttributeError]), or the
    block type the mapping gives, barrier when it gives none, is not
    valid ([ValueError]). *)
Theorem factory_raises_iff (source : Source)
    (data : gmap string conf_value) :
  load_data_from_conf source = Ok data ->
  ((exists e, factory source = Raise e)
   <-> (exists v, data !! "barrier_box" = Some (CScalar v))
       \/ (exists m, data !! "barrier_box" = Some (CMapping m)
                     /\ ~ valid_block_type
                          (default (PyStr "barrier") (m !! "block_type"))))
  /\ ((exists v, data !! "barrier_box" = Some (CScalar v)) ->
      factory source = Raise AttributeError)
  /\ (forall m,
        data !! "barrier_box" = Some (CMapping m) ->
        ~ valid_block_type (default (PyStr "barrier") (m !! "block_type")) ->
        factory source
        = Raise (ValueError
                   (invalid_block_message
                      (default (PyStr "barrier") (m !! "block_type"))))).
Proof.
  intros Hload.
  assert (forall m, dict_get m "block_type" (PyStr "barrier")
                    = default (PyStr "barrier") (m !! "block_type")) as Hget.
  { intros m. unfold dict_get. now destruct (m !! "block_type"). }
  destruct (data !! "barrier_box") as [[v|m]|] eqn:Hkey.
  - assert (factory source = Raise AttributeError) as ->
      by (unfold create_from_conf; now rewrite Hload, Hkey).
    split; [|split].
    + split; eauto.
    + reflexivity.
    + intros m [=].
  - rewrite (factory_on_mapping source data m Hload Hkey), Hget.
    destruct (py_in _ valid_blocks) eqn:Hin.
    + pose proof (proj1 (py_in_valid_blocks _) Hin) as Hv.
      split; [|split].
      * split; [intros [e He]; discriminate|].
        intros [[v [=]]|(m' & [= <-] & Hbad)]. contradiction.
      * intros [v [=]].
      * intros m' [= <-] Hbad. contradiction.
    + assert (~ valid_block_type
                (default (PyStr "barrier") (m !! "block_type"))) as Hnv.
      { intros Hv. apply py_in_valid_blocks in Hv. congruence. }
      split; [|split].
      * split; [|eauto]. intros _. right. exists m. now split.
      * intros [v [=]].
      * intros m' [= <-] _. reflexivity.
  - assert (factory source = Ok None) as ->
      by (unfold create_from_conf; now rewrite Hload, Hkey).
    split; [|split].
    + split; [intros [e He]; discriminate|].
      intros [[v [=]]|(m & [=] & _)].
    + intros [v [=]].
    + intros m [=].
Qed.

(** The factory reads the five keys and nothing else: two mappings that
    agree on them give the same outcome, whatever other keys they hold. *)
Theorem factory_ignores_other_keys (source source' : Source)
    (data data' : gmap string conf_value) (m m' : gmap string pyval) :
  load_data_from_conf source = Ok data ->
  load_data_from_conf source' = Ok data' ->
  data !! "barrier_box" = Some (CMapping m) ->
  data' !! "barrier_box" = Some (CMapping m') ->
  (forall k,
     In k ["size"; "height"; "block_type"; "include_floor";
           "include_ceiling"] ->
     m !! k = m' !! k) ->
  factory source = factory source'.
Proof.
  intros Hload Hload' Hkey Hkey' Hagree.
  rewrite (factory_on_mapping source data m Hload Hkey),
    (factory_on_mapping source' data' m' Hload' Hkey').
  unfold dict_get.
  rewrite !(Hagree "size"), !(Hagree "height"), !(Hagree "block_type"),
    !(Hagree "include_floor"), !(Hagree "include_ceiling");
    cbn [In]; auto 10.
Qed.

End FactoryMore.

Lemma factory_object_witness :
  exists data m,
    load_mapping {[ "barrier_box" := CMapping {[ "size" := PyInt 30 ]} ]}
    = Ok data
    /\ data !! "barrier_box" = Some (CMapping m)
    /\ BarrierBoxCallback.size
         (BarrierBoxCallback.Instance (PyInt 30) (PyInt 10) (PyStr "barrier")
            (PyBool false) (PyBool false))
       = default (PyInt 25) (m !! "size")
    /\ BarrierBoxCallback.height
         (BarrierBoxCallback.Instance (PyInt 30) (PyInt 10) (PyStr "barrier")
            (PyBool false) (PyBool false))
       = default (PyInt 10) (m !! "height")
    /\ BarrierBoxCallback.block_type
         (BarrierBoxCallback.Instance (PyInt 30) (PyInt 10) (PyStr "barrier")
            (PyBool false) (PyBool false))
       = default (PyStr "barrier") (m !! "block_type")
    /\ BarrierBoxCallback.include_floor
         (BarrierBoxCallback.Instance (PyInt 30) (PyInt 10) (PyStr "barrier")
            (PyBool false) (PyBool false))
       = default (PyBool false) (m !! "include_floor")
    /\ BarrierBoxCallback.include_ceiling
         (BarrierBoxCallback.Instance (PyInt 30) (PyInt 10) (PyStr "barrier")
            (PyBool false) (PyBool false))
       = default (PyBool false) (m !! "include_ceiling")
    /\ valid_block_type
         (BarrierBoxCallback.block_type
            (BarrierBoxCallback.Instance (PyInt 30) (PyInt 10)
               (PyStr "barrier") (PyBool false) (PyBool false))).
Proof.
  apply (factory_object _ load_mapping
           {[ "barrier_box" := CMapping {[ "size" := PyInt 30 ]} ]}).
  vm_compute. reflexivity.
Defined.

Lemma factory_raises_iff_witness :
  ((exists e,
      BarrierBoxCallback.create_from_conf _ load_mapping
        {[ "barrier_box" := CScalar PyNone ]} = Raise e)
   <-> (exists v,
          ({[ "barrier_box" := CScalar PyNone ]}
             : gmap string conf_value) !! "barrier_box"
          = Some (CScalar v))
       \/ (exists m,
             ({[ "barrier_box" := CScalar PyNone ]}
                : gmap string conf_value) !! "barrier_box"
             = Some (CMapping m)
             /\ ~ valid_block_type
                  (default (PyStr "barrier") (m !! "block_type"))))
  /\ ((exists v,
         ({[ "barrier_box" := CScalar PyNone ]}
            : gmap string conf_value) !! "barrier_box"
         = Some (CScalar v)) ->
      BarrierBoxCallback.create_from_conf _ load_mapping
        {[ "barrier_box" := CScalar PyNone ]} = Raise AttributeError)
  /\ (forall m,
        ({[ "barrier_box" := CScalar PyNone ]}
           : gmap string conf_value) !! "barrier_box"
        = Some (CMapping m) ->
        ~ valid_block_type (default (PyStr "barrier") (m !! "block_type")) ->
        BarrierBoxCallback.create_from_conf _ load_mapping
          {[ "barrier_box" := CScalar PyNone ]}
        = Raise (ValueError
                   (BarrierBoxCallback.invalid_block_message
                      (default (PyStr "barrier") (m !! "block_type"))))).
Proof.
  apply (factory_raises_iff _ load_mapping
           {[ "barrier_box" := CScalar PyNone ]}
           {[ "barrier_box" := CScalar PyNone ]}).
  reflexivity.
Defined.

Lemma factory_ignores_other_keys_witness :
  BarrierBoxCallback.create_from_conf _ load_mapping
    {[ "barrier_box" := CMapping {[ "size" := PyInt 9 ]} ]}
  = BarrierBoxCallback.create_from_conf _ load_mapping
      {[ "barrier_box" :=
           CMapping (<[ "colour" := PyStr "red" ]> {[ "size" := PyInt 9 ]}) ]}.
Proof.
  apply (factory_ignores_other_keys _ load_mapping _ _
           {[ "barrier_box" := CMapping {[ "size" := PyInt 9 ]} ]}
           {[ "barrier_box" :=
                CMapping (<[ "colour" := PyStr "red" ]>
                            {[ "size" := PyInt 9 ]}) ]}
           {[ "size" := PyInt 9 ]}
           (<[ "colour" := PyStr "red" ]> {[ "size" := PyInt 9 ]}));
    try reflexivity.
  intros k [<-|[<-|[<-|[<-|[<-|[]]]]]]; vm_compute; reflexivity.
Defined.

(** ** Further properties: the reset hook on any simulator *)

Section HookMore.

Import BarrierBoxCallback Traced.

Variables Sim Obs Reward Done Info : Type.
Variable execute_cmd : string -> M Sim (Obs * Reward * Done * Info).
Variable _wrap_obs_info : Obs -> Info -> M Sim (Obs * Info).

Local Abbreviation hook :=
  (BarrierBoxCallback.after_reset Sim Obs Reward Done Info
     execute_cmd _wrap_obs_info).
Local Abbreviation traced_hook :=
  (Traced.after_reset Sim Obs Reward Done Info execute_cmd _wrap_obs_info).
Local Abbreviation traced_body :=
  (fun (command : string) '((obs, info) : Obs * Info) =>
     bind (S := instance * (Sim * list call))
       (on_snd (traced_execute_cmd Sim Obs Reward Done Info
                  execute_cmd command))
       (fun step => let '(obs, reward, done, info) := step in
                    ret (obs, info))).
Local Abbreviation plain_body :=
  (fun (command : string) '((obs, info) : Obs * Info) =>
     bind (S := instance * Sim) (on_snd (execute_cmd command))
       (fun step => let '(obs, reward, done, info) := step in
                    ret (obs, info))).




End HookMore.

Section HookProperties.

Import BarrierBoxCallback Traced.

Variables Sim Obs Reward Done Info : Type.
Variable execute_cmd : string -> M Sim (Obs * Reward * Done * Info).
Variable _wrap_obs_info : Obs -> Info -> M Sim (Obs * Info).

Local Abbreviation hook :=
  (BarrierBoxCallback.after_reset Sim Obs Reward Done Info
     execute_cmd _wrap_obs_info).
Local Abbreviation traced_hook :=
  (Traced.after_reset Sim Obs Reward Done Info execute_cmd _wrap_obs_info).
Local Abbreviation plain_body :=
  (fun (command : string) '((obs, info) : Obs * Info) =>
     bind (S := instance * Sim) (on_snd (execute_cmd command))
       (fun step => let '(obs, reward, done, info) := step in
                    ret (obs, info))).


Lemma plain_loop_keeps_self commands : forall acc self sim,
  fst (snd (for_each commands plain_body acc (self, sim))) = self.
Proof.
  induction commands as [|c cs IH]; intros [obs info] self sim.
  - reflexivity.
  - cbn [for_each]. unfold bind at 1.
    unfold bind at 1, on_snd at 1; cbn [fst snd].
    destruct (execute_cmd c sim) as [[[[[o r] d] i]|e] sim1].
    + apply IH.
    + reflexivity.
Qed.

(** On any simulator, whether it returns or raises, the hook leaves the
    callback object as it was. *)
Theorem after_reset_keeps_self self sim obs info :
  fst (snd (BarrierBoxCallback.after_reset Sim Obs Reward Done Info
              execute_cmd _wrap_obs_info obs info (self, sim)))
  = self.
Proof.
  destruct (int_like (size self)) as [sz|] eqn:Hs;
    [destruct (int_like (height self)) as [h|] eqn:Hh|].
  - rewrite (after_reset_run _ _ _ _ _ _ _ self sim obs info sz h Hs Hh).
    unfold bind at 1.
    match goal with
    | |- context [for_each ?cs _ ?acc (self, sim)] =>
        pose proof (plain_loop_keeps_self cs acc self sim) as Hloop;
        destruct (for_each cs plain_body acc (self, sim))
          as [[[o i]|e] [self1 sim1]]
    end; cbn [fst snd] in Hloop; subst self1.
    + unfold bind, on_snd; cbn [fst snd].
      now destruct (_wrap_obs_info o i sim1) as [[[o' i']|e] sim2].
    + reflexivity.
  - now rewrite after_reset_raise by now right.
  - now rewrite after_reset_raise by now left.
Qed.

Lemma plain_loop_succeeds commands :
  (forall c s, exists v s', execute_cmd c s = (Ok v, s')) ->
  forall acc self sim,
  exists acc' sim',
    for_each commands plain_body acc (self, sim) = (Ok acc', (self, sim')).
Proof.
  intros Hexec.
  induction commands as [|c cs IH]; intros [obs info] self sim.
  - now exists (obs, info), sim.
  - cbn [for_each]. unfold bind at 1.
    unfold bind at 1, on_snd at 1; cbn [fst snd].
    destruct (Hexec c sim) as ([[[o r] d] i] & sim1 & ->).
    apply IH.
Qed.

(** With int size and height, on a simulator whose two methods never
    raise, the hook returns without raising, and what it returns is what
    [_wrap_obs_info] returned. *)
Theorem after_reset_succeeds self sim obs info sz h :
  (forall c s, exists v s', execute_cmd c s = (Ok v, s')) ->
  (forall o i s, exists v s', _wrap_obs_info o i s = (Ok v, s')) ->
  int_like (size self) = Some sz ->
  int_like (height self) = Some h ->
  exists o i sim1 v sim',
    _wrap_obs_info o i sim1 = (Ok v, sim')
    /\ hook obs info (self, sim) = (Ok v, (self, sim')).
Proof.
  intros Hexec Hwrap Hs Hh.
  rewrite (after_reset_run _ _ _ _ _ _ _ self sim obs info sz h Hs Hh).
  unfold bind at 1.
  match goal with
  | |- context [for_each ?cs _ ?acc (self, sim)] =>
      destruct (plain_loop_succeeds cs Hexec acc self sim)
        as ([o i] & sim1 & ->)
  end.
  destruct (Hwrap o i sim1) as ([o' i'] & sim' & Hw).
  exists o, i, sim1, (o', i'), sim'. split; [exact Hw|].
  unfold bind, on_snd, ret; cbn [fst snd]. now rewrite Hw.
Qed.

(** A size or height that is not an int is accepted by the constructor
    and only fails at reset: the hook raises [TypeError] before it calls
    the simulator, whose state is left as it was. *)
Theorem bad_size_fails_at_reset (sz h bt fl ce : pyval) :
  valid_block_type bt ->
  int_like sz = None \/ int_like h = None ->
  exists self,
    __init__ sz h bt fl ce = Ok self
    /\ forall sim obs info,
         hook obs info (self, sim) = (Raise TypeError, (self, sim)).
Proof.
  intros Hbt Hbad. apply py_in_valid_blocks in Hbt.
  exists (Instance sz h bt fl ce). split.
  - now rewrite init_cases, Hbt.
  - intros sim obs info. now apply after_reset_raise.
Qed.



End HookProperties.


Lemma after_reset_succeeds_witness :
  exists o i sim1 v sim',
    Recorder._wrap_obs_info o i sim1 = (Ok v, sim')
    /\ Recorder.after_reset 0%nat 0%nat (default_instance, [])
       = (Ok v, (default_instance, sim')).
Proof.
  apply (after_reset_succeeds Recorder.Sim nat Z bool nat
           Recorder.execute_cmd Recorder._wrap_obs_info
           default_instance [] 0%nat 0%nat 25 10).
  - intros c s. do 2 eexists. reflexivity.
  - intros o i s. do 2 eexists. reflexivity.
  - reflexivity.
  - reflexivity.
Defined.

Lemma bad_size_fails_at_reset_witness :
  exists self,
    BarrierBoxCallback.__init__ (PyStr "25") (PyInt 10) (PyStr "glass")
      (PyBool false) (PyBool false) = Ok self
    /\ forall sim obs info,
         Recorder.after_reset obs info (self, sim)
         = (Raise TypeError, (self, sim)).
Proof.
  apply (bad_size_fails_at_reset Recorder.Sim nat Z bool nat
           Recorder.execute_cmd Recorder._wrap_obs_info
           (PyStr "25") (PyInt 10) (PyStr "glass")
           (PyBool false) (PyBool false)).
  - right; right; reflexivity.
  - left; reflexivity.
Defined.

